(** * TypeORM sample4: the [PrimaryColumn] decorator and the [Connection] class

    A shallow embedding of the two library files that accompany the
    [PostCategory] sample entity:

    - [src/decorator/columns] : the [PrimaryColumn] decorator factory;
    - [src/connection/Connection] : the [Connection] composition root.

    JavaScript objects are compared with [===] by identity.  Every object
    whose identity matters carries an explicit reference ([Ref]); the fields
    read by the code are never written by it, so [===] on such an object is
    equality of the whole record (reference and contents together). *)

From Stdlib Require Import String List Bool Arith Lia.
Import ListNotations.
Open Scope string_scope.
Open Scope list_scope.

(** ** Values shared by both files *)

(** Identity of a heap object. *)
Definition Ref := nat.

(** A class, that is, a JavaScript constructor function. *)
Record ConstructorFunction := Class {
  class_ref : Ref;
  class_name : string
}.

Definition ConstructorFunction_eq_dec (a b : ConstructorFunction) : {a = b} + {a <> b}.
Proof. decide equality; [apply string_dec | apply Nat.eq_dec]. Defined.

(** [a === b] on classes. *)
Definition same_class (a b : ConstructorFunction) : bool :=
  if ConstructorFunction_eq_dec a b then true else false.

(** The first argument of a property decorator: the prototype of the
    decorated class; [object.constructor] is the class itself. *)
Record JSObject := Prototype {
  constructor_of : ConstructorFunction
}.

(** The errors thrown by the two files. *)
Inductive Error :=
| ColumnTypeUndefinedError (object : JSObject) (propertyName : string)
| PrimaryColumnCannotBeNullableError (object : JSObject) (propertyName : string)
| RepositoryNotFoundError (entityClass : ConstructorFunction)
| MetadataNotFoundError (entityClass : ConstructorFunction).

(** Completion of a call: a returned value or a thrown error. *)
Inductive Completion (A : Type) :=
| Normal (a : A)
| Throw (e : Error).
Arguments Normal {A} a.
Arguments Throw {A} e.

(** ** src/decorator/columns *)

Module Columns.

(** [ColumnType] is a string type; a variable of that type may also hold
    [undefined], written [None]. *)
Definition ColumnType := string.

(** Modelled from the spec: the [ColumnOptions] interface is not among the
    sources.  The per-column options are [{type, nullable, autoIncrement,
    length, default, unique}]; every field is optional, [None] is
    [undefined]. *)
Record ColumnOptions := {
  type : option ColumnType;
  nullable : option bool;
  autoIncrement : option bool;
  length : option string;
  default : option string;
  unique : option bool
}.

(** The object literal [{}]. *)
Definition emptyOptions : ColumnOptions :=
  {| type := None; nullable := None; autoIncrement := None;
     length := None; default := None; unique := None |}.

(** The assignment [columnOptions.type = t]. *)
Definition set_type (o : ColumnOptions) (t : option ColumnType) : ColumnOptions :=
  {| type := t; nullable := nullable o; autoIncrement := autoIncrement o;
     length := length o; default := default o; unique := unique o |}.

(** JavaScript truthiness of a possibly undefined string: [undefined] and
    the empty string are falsy. *)
Definition truthy_string (v : option string) : bool :=
  match v with
  | Some s => negb (s =? "")
  | None => false
  end.

(** JavaScript truthiness of a possibly undefined boolean. *)
Definition truthy_bool (v : option bool) : bool :=
  match v with
  | Some b => b
  | None => false
  end.

(** Modelled from the spec: the [ColumnMetadata] class is not among the
    sources.  A column metadata is the argument object of
    [new ColumnMetadata({...})]: owning class, property name, reflected
    type, primary-key flag and the column options. *)
Record ColumnMetadata := {
  target : ConstructorFunction;
  propertyName : string;
  propertyType : string;
  isPrimaryKey : bool;
  options : ColumnOptions
}.

(** Modelled from the spec: the [MetadataStorage] class is not among the
    sources.  It accumulates raw declarations; [addColumnMetadata] appends a
    candidate with no uniqueness check and no validation. *)
Record MetadataStorage := {
  columnMetadatas : list ColumnMetadata
}.

Definition emptyStorage : MetadataStorage := {| columnMetadatas := [] |}.

Definition addColumnMetadata (entry : ColumnMetadata) (s : MetadataStorage) : MetadataStorage :=
  {| columnMetadatas := columnMetadatas s ++ [entry] |}.

(** The reflection helpers used by the decorator live outside the source:
    [Reflect.getMetadata("design:type", object, propertyName)] and the two
    static functions of [ColumnTypes].  They are an interface here. *)
Class Reflection := {
  DesignType : Type;
  design_type : JSObject -> string -> DesignType;
  typeToString : DesignType -> string;
  determineTypeFromFunction : DesignType -> option ColumnType
}.

(** The overloaded first argument [typeOrOptions?: ColumnType|ColumnOptions]. *)
Inductive TypeOrOptions :=
| ArgUndefined
| ArgType (t : ColumnType)
| ArgOptions (o : ColumnOptions).

(** The variables captured by the function that [PrimaryColumn] returns:
    [type] and [options].  [options] refers to the object the caller passed,
    so a write to one of its fields is a write to this cell. *)
Record Closure := {
  closure_type : option ColumnType;
  closure_options : option ColumnOptions
}.

(** What a decorator application can read and write: its captured variables
    and the process-wide [defaultMetadataStorage]. *)
Record World := {
  closure : Closure;
  defaultMetadataStorage : MetadataStorage
}.

(** State and exception monad of a decorator application.  The state
    survives a throw: writes made before it stay. *)
Definition Exec (A : Type) := World -> Completion A * World.

Definition ret {A} (a : A) : Exec A := fun w => (Normal a, w).

Definition bind {A B} (m : Exec A) (k : A -> Exec B) : Exec B :=
  fun w =>
    match m w with
    | (Normal a, w') => k a w'
    | (Throw e, w') => (Throw e, w')
    end.

Definition throw {A} (e : Error) : Exec A := fun w => (Throw e, w).

Declare Scope exec_scope.
Delimit Scope exec_scope with exec.
Notation "x <- m ;; k" := (bind m (fun x => k))
  (at level 100, m at next level, right associativity) : exec_scope.
Notation "m ;; k" := (bind m (fun _ => k))
  (at level 100, right associativity) : exec_scope.
Open Scope exec_scope.

Definition read_type : Exec (option ColumnType) :=
  fun w => (Normal (closure_type (closure w)), w).

Definition write_type (t : option ColumnType) : Exec unit :=
  fun w => (Normal tt,
            {| closure := {| closure_type := t;
                             closure_options := closure_options (closure w) |};
               defaultMetadataStorage := defaultMetadataStorage w |}).

Definition read_options : Exec (option ColumnOptions) :=
  fun w => (Normal (closure_options (closure w)), w).

Definition write_options (o : option ColumnOptions) : Exec unit :=
  fun w => (Normal tt,
            {| closure := {| closure_type := closure_type (closure w);
                             closure_options := o |};
               defaultMetadataStorage := defaultMetadataStorage w |}).

Definition storage_addColumnMetadata (entry : ColumnMetadata) : Exec unit :=
  fun w => (Normal tt,
            {| closure := closure w;
               defaultMetadataStorage := addColumnMetadata entry (defaultMetadataStorage w) |}).

(** [if (c) body] with no else branch. *)
Definition when (c : bool) (body : Exec unit) : Exec unit :=
  if c then body else ret tt.

(** The body of [PrimaryColumn] before its [return]: the captured variables
    as they stand when the decorator function is created.  When the first
    argument is not a string it replaces [options], also when it is
    [undefined]. *)
Definition PrimaryColumn (typeOrOptions : TypeOrOptions) (options : option ColumnOptions) : Closure :=
  match typeOrOptions with
  | ArgType t => {| closure_type := Some t; closure_options := options |}
  | ArgOptions o => {| closure_type := None; closure_options := Some o |}
  | ArgUndefined => {| closure_type := None; closure_options := None |}
  end.

Section Decorator.
Context `{Reflection}.

(** The function that [PrimaryColumn] returns, applied to a property. *)
Definition decorate (object : JSObject) (propertyName : string) : Exec unit :=
  let reflectedType := typeToString (design_type object propertyName) in
  (* if type is not given implicitly then try to guess it *)
  t0 <- read_type ;;
  when (negb (truthy_string t0))
       (write_type (determineTypeFromFunction (design_type object propertyName))) ;;
  t <- read_type ;;
  (* if column options are not given then create a new empty options *)
  opts <- read_options ;;
  let columnOptions := match opts with Some o => o | None => emptyOptions end in
  (* set the type from the first argument, or the guessed one; the write
     lands in the caller's object when one was given *)
  let columnOptions' :=
    if negb (truthy_string (type columnOptions)) then set_type columnOptions t
    else columnOptions in
  when (negb (truthy_string (type columnOptions)))
       (match opts with
        | Some _ => write_options (Some columnOptions')
        | None => ret tt
        end) ;;
  (* if we still don't have a type then give an error *)
  (if negb (truthy_string (type columnOptions'))
   then throw (ColumnTypeUndefinedError object propertyName)
   else ret tt) ;;
  (* a primary key cannot be nullable *)
  (if truthy_bool (nullable columnOptions')
   then throw (PrimaryColumnCannotBeNullableError object propertyName)
   else ret tt) ;;
  (* create and register a new column metadata *)
  storage_addColumnMetadata
    {| target := constructor_of object;
       propertyName := propertyName;
       propertyType := reflectedType;
       isPrimaryKey := true;
       options := columnOptions' |}.

(** The options object the checks are made on ([columnOptions] once its
    type has been filled in), as a function of the captured variables. *)
Definition resolvedOptions (c : Closure) (object : JSObject) (propertyName : string) : ColumnOptions :=
  let t := if truthy_string (closure_type c) then closure_type c
           else determineTypeFromFunction (design_type object propertyName) in
  let columnOptions := match closure_options c with Some o => o | None => emptyOptions end in
  if truthy_string (type columnOptions) then columnOptions else set_type columnOptions t.

(** The entry a successful application registers. *)
Definition registeredEntry (c : Closure) (object : JSObject) (name : string) : ColumnMetadata :=
  {| target := constructor_of object;
     propertyName := name;
     propertyType := typeToString (design_type object name);
     isPrimaryKey := true;
     options := resolvedOptions c object name |}.

End Decorator.

(** A decorator created by [PrimaryColumn(typeOrOptions, options)] and
    applied once, on a given storage. *)
Definition declare `{Reflection} (typeOrOptions : TypeOrOptions) (options : option ColumnOptions)
    (object : JSObject) (propertyName : string) (storage : MetadataStorage)
    : Completion unit * World :=
  decorate object propertyName
    {| closure := PrimaryColumn typeOrOptions options;
       defaultMetadataStorage := storage |}.

End Columns.

(** ** src/connection/Connection *)

Module Conn.

(** *** The collaborators of a connection

    Their classes are outside the source; each is the record of what the
    connection stores in it or reads from it. *)

(** Modelled from the spec: the [EntityMetadata] class is not among the
    sources.  It is an object with identity that carries the owning class
    identity, read as [target], and the table name. *)
Record EntityMetadata := {
  metadata_ref : Ref;
  target : ConstructorFunction;
  tableName : string
}.

Definition EntityMetadata_eq_dec (a b : EntityMetadata) : {a = b} + {a <> b}.
Proof.
  decide equality;
    [apply string_dec | apply ConstructorFunction_eq_dec | apply Nat.eq_dec].
Defined.

(** [a === b] on entity metadatas. *)
Definition same_metadata (a b : EntityMetadata) : bool :=
  if EntityMetadata_eq_dec a b then true else false.

(** Modelled from the spec: the [EntityListenerMetadata] class is not among
    the sources.  It carries the owning class identity, the event type and a
    handler reference. *)
Record EntityListenerMetadata := {
  listener_target : ConstructorFunction;
  listener_event : string;
  listener_handler : string
}.

(** A subscriber is an opaque object. *)
Record EventSubscriberInterface := {
  subscriber_ref : Ref
}.

(** Modelled from the spec: the [ConnectionOptions] interface is not among
    the sources.  The option read here is [autoSchemaCreate: boolean];
    [None] is [undefined]. *)
Record ConnectionOptions := {
  autoSchemaCreate : option bool
}.

(** The driver holds a back reference to its connection, set by the
    constructor of [Connection]. *)
Record Driver := {
  driver_ref : Ref;
  driver_connection : option Ref
}.

(** [new EntityManager(connection)]. *)
Record EntityManager := {
  entityManager_ref : Ref;
  entityManager_connection : Ref
}.

(** [new Repository<any>(connection, metadata)]. *)
Record Repository := {
  repository_ref : Ref;
  repository_connection : Ref;
  repository_metadata : EntityMetadata
}.

(** [new SchemaCreator(connection)]. *)
Record SchemaCreator := {
  schemaCreator_connection : Ref
}.

Record RepositoryAndMetadata := {
  repository : Repository;
  metadata : EntityMetadata
}.

(** *** The class *)

Record Connection := {
  this_ref : Ref;
  _name : string;
  _driver : Driver;
  _entityMetadatas : list EntityMetadata;
  _entityListenerMetadatas : list EntityListenerMetadata;
  _subscribers : list EventSubscriberInterface;
  repositoryAndMetadatas : list RepositoryAndMetadata;
  _options : ConnectionOptions;
  entityManager : EntityManager
}.

(** Object allocation: [new] takes the next free reference. *)
Definition Alloc (A : Type) := Ref -> A * Ref.

Definition alloc_ret {A} (a : A) : Alloc A := fun next => (a, next).

Definition alloc_bind {A B} (m : Alloc A) (k : A -> Alloc B) : Alloc B :=
  fun next => let (a, next') := m next in k a next'.

Definition fresh : Alloc Ref := fun next => (next, S next).

Declare Scope alloc_scope.
Delimit Scope alloc_scope with alloc.
Notation "x <- m ;; k" := (alloc_bind m (fun x => k))
  (at level 100, m at next level, right associativity) : alloc_scope.
Open Scope alloc_scope.

(** [xs.map(f)] where [f] allocates: left to right. *)
Fixpoint alloc_map {A B} (f : A -> Alloc B) (xs : list A) : Alloc (list B) :=
  match xs with
  | [] => alloc_ret []
  | x :: xs' =>
      y <- f x ;;
      ys <- alloc_map f xs' ;;
      alloc_ret (y :: ys)
  end.

Definition new_EntityManager (connection : Ref) : Alloc EntityManager :=
  r <- fresh ;;
  alloc_ret {| entityManager_ref := r; entityManager_connection := connection |}.

Definition new_Repository (connection : Ref) (metadata : EntityMetadata) : Alloc Repository :=
  r <- fresh ;;
  alloc_ret {| repository_ref := r;
               repository_connection := connection;
               repository_metadata := metadata |}.

Definition new_SchemaCreator (connection : Ref) : SchemaCreator :=
  {| schemaCreator_connection := connection |}.

(** [constructor(name, driver, options)]. *)
Definition new_Connection (name : string) (driver : Driver) (options : ConnectionOptions)
    : Alloc Connection :=
  this <- fresh ;;
  em <- new_EntityManager this ;;
  alloc_ret
    {| this_ref := this;
       _name := name;
       _driver := {| driver_ref := driver_ref driver; driver_connection := Some this |};
       _entityMetadatas := [];
       _entityListenerMetadatas := [];
       _subscribers := [];
       repositoryAndMetadatas := [];
       _options := options;
       entityManager := em |}.

(** **** Getters *)

Definition name (this : Connection) : string := _name this.
Definition driver (this : Connection) : Driver := _driver this.
Definition subscribers (this : Connection) : list EventSubscriberInterface := _subscribers this.
Definition entityMetadatas (this : Connection) : list EntityMetadata := _entityMetadatas this.
Definition entityListeners (this : Connection) : list EntityListenerMetadata :=
  _entityListenerMetadatas this.
Definition repositories (this : Connection) : list Repository :=
  map (fun repoAndMeta => repository repoAndMeta) (repositoryAndMetadatas this).
Definition options (this : Connection) : ConnectionOptions := _options this.
Definition getEntityManager (this : Connection) : EntityManager := entityManager this.

(** **** Lookups *)

(** Gets the entity metadata for the given entity class. *)
Definition getEntityMetadata (this : Connection) (entityClass : ConstructorFunction)
    : Completion EntityMetadata :=
  match find (fun metadata => same_class (target metadata) entityClass) (entityMetadatas this) with
  | None => Throw (MetadataNotFoundError entityClass)
  | Some metadata => Normal metadata
  end.

(** Gets repository for the given entity class. *)
Definition getRepository (this : Connection) (entityClass : ConstructorFunction)
    : Completion Repository :=
  match getEntityMetadata this entityClass with
  | Throw e => Throw e
  | Normal metadata =>
      match find (fun repoMeta => same_metadata (Conn.metadata repoMeta) metadata)
                 (repositoryAndMetadatas this) with
      | None => Throw (RepositoryNotFoundError entityClass)
      | Some repoMeta => Normal (repository repoMeta)
      end
  end.

(** **** Registration *)

Definition createRepoMeta (this : Connection) (metadata : EntityMetadata)
    : Alloc RepositoryAndMetadata :=
  r <- new_Repository (this_ref this) metadata ;;
  alloc_ret {| repository := r; metadata := metadata |}.

(** Registers entity metadatas for the current connection. *)
Definition addEntityMetadatas (this : Connection) (metadatas : list EntityMetadata)
    : Alloc Connection :=
  let this1 :=
    {| this_ref := this_ref this;
       _name := _name this;
       _driver := _driver this;
       _entityMetadatas := _entityMetadatas this ++ metadatas;
       _entityListenerMetadatas := _entityListenerMetadatas this;
       _subscribers := _subscribers this;
       repositoryAndMetadatas := repositoryAndMetadatas this;
       _options := _options this;
       entityManager := entityManager this |} in
  pairs <- alloc_map (createRepoMeta this1) metadatas ;;
  alloc_ret
    {| this_ref := this_ref this1;
       _name := _name this1;
       _driver := _driver this1;
       _entityMetadatas := _entityMetadatas this1;
       _entityListenerMetadatas := _entityListenerMetadatas this1;
       _subscribers := _subscribers this1;
       repositoryAndMetadatas := repositoryAndMetadatas this1 ++ pairs;
       _options := _options this1;
       entityManager := entityManager this1 |}.

(** Registers entity listener metadatas for the current connection. *)
Definition addEntityListenerMetadatas (this : Connection) (metadatas : list EntityListenerMetadata)
    : Connection :=
  {| this_ref := this_ref this;
     _name := _name this;
     _driver := _driver this;
     _entityMetadatas := _entityMetadatas this;
     _entityListenerMetadatas := _entityListenerMetadatas this ++ metadatas;
     _subscribers := _subscribers this;
     repositoryAndMetadatas := repositoryAndMetadatas this;
     _options := _options this;
     entityManager := entityManager this |}.

(** Registers subscribers for the current connection. *)
Definition addSubscribers (this : Connection) (subscribers : list EventSubscriberInterface)
    : Connection :=
  {| this_ref := this_ref this;
     _name := _name this;
     _driver := _driver this;
     _entityMetadatas := _entityMetadatas this;
     _entityListenerMetadatas := _entityListenerMetadatas this;
     _subscribers := _subscribers this ++ subscribers;
     repositoryAndMetadatas := repositoryAndMetadatas this;
     _options := _options this;
     entityManager := entityManager this |}.

Close Scope alloc_scope.

(** *** Promises

    The driver and the schema creator are external: what their calls settle
    to is given by the environment.  A promise is the list of external calls
    made until it settles, in order, with the outcome. *)

Inductive Settled (A : Type) :=
| Resolved (a : A)
| Rejected (reason : string).
Arguments Resolved {A} a.
Arguments Rejected {A} reason.

Inductive ExternalCall :=
| DriverConnect (d : Driver)
| DriverDisconnect (d : Driver)
| SchemaCreatorCreate (s : SchemaCreator).

Record Environment := {
  driver_connect : Driver -> Settled unit;
  driver_disconnect : Driver -> Settled unit;
  schemaCreator_create : SchemaCreator -> Settled unit
}.

Definition Promise (A : Type) := (list ExternalCall * Settled A)%type.

Definition call_driver_connect (env : Environment) (d : Driver) : Promise unit :=
  ([DriverConnect d], driver_connect env d).

Definition call_driver_disconnect (env : Environment) (d : Driver) : Promise unit :=
  ([DriverDisconnect d], driver_disconnect env d).

Definition call_schemaCreator_create (env : Environment) (s : SchemaCreator) : Promise unit :=
  ([SchemaCreatorCreate s], schemaCreator_create env s).

(** A callback returning a plain value: the promise it stands for. *)
Definition resolved {A} (a : A) : Promise A := ([], Resolved a).

(** [p.then(onFulfilled)] with no rejection handler: the callback runs only
    once [p] has resolved, and the result settles as what it returns. *)
Definition then_ {A B} (p : Promise A) (onFulfilled : A -> Promise B) : Promise B :=
  match p with
  | (calls, Resolved a) =>
      let (calls', outcome) := onFulfilled a in (calls ++ calls', outcome)
  | (calls, Rejected reason) => (calls, Rejected reason)
  end.

(** [optionValue === true]. *)
Definition is_true (v : option bool) : bool :=
  match v with
  | Some true => true
  | _ => false
  end.

(** Performs connection to the database.  The schema creator is constructed
    first; constructing it is not a call to the database. *)
Definition connect (env : Environment) (this : Connection) : Promise unit :=
  let schemaCreator := new_SchemaCreator (this_ref this) in
  then_ (call_driver_connect env (_driver this))
        (fun _ =>
           if is_true (autoSchemaCreate (_options this))
           then call_schemaCreator_create env schemaCreator
           else resolved tt).

(** Closes this connection. *)
Definition close (env : Environment) (this : Connection) : Promise unit :=
  call_driver_disconnect env (_driver this).

(** *** Programs over one connection

    The public members of the class, as calls a client can make, and the
    state they leave behind: the connection and the next free reference.
    A call that throws leaves the state as it was.  The driver and the
    schema creator are taken not to call back into the connection while
    [connect] and [close] run. *)

Inductive Call :=
| GetName
| GetDriver
| GetSubscribers
| GetEntityMetadatas
| GetEntityListeners
| GetRepositories
| GetOptions
| Connect (env : Environment)
| Close (env : Environment)
| GetEntityManager
| GetRepository (entityClass : ConstructorFunction)
| GetEntityMetadata (entityClass : ConstructorFunction)
| AddEntityMetadatas (metadatas : list EntityMetadata)
| AddEntityListenerMetadatas (metadatas : list EntityListenerMetadata)
| AddSubscribers (subscribers : list EventSubscriberInterface).

Definition State := (Connection * Ref)%type.

Definition step (s : State) (c : Call) : State :=
  let (this, next) := s in
  match c with
  | AddEntityMetadatas metadatas => addEntityMetadatas this metadatas next
  | AddEntityListenerMetadatas metadatas => (addEntityListenerMetadatas this metadatas, next)
  | AddSubscribers subscribers => (addSubscribers this subscribers, next)
  | GetName | GetDriver | GetSubscribers | GetEntityMetadatas | GetEntityListeners
  | GetRepositories | GetOptions | Connect _ | Close _ | GetEntityManager
  | GetRepository _ | GetEntityMetadata _ => (this, next)
  end.

Definition run (s : State) (calls : list Call) : State := fold_left step calls s.

(** The metadatas handed to [addEntityMetadatas] by a program, in order. *)
Fixpoint registered (calls : list Call) : list EntityMetadata :=
  match calls with
  | [] => []
  | AddEntityMetadatas metadatas :: rest => metadatas ++ registered rest
  | _ :: rest => registered rest
  end.

(** A connection as a client obtains it, after a program of calls. *)
Definition connection_after (name : string) (driver : Driver) (options : ConnectionOptions)
    (next : Ref) (calls : list Call) : Connection :=
  fst (run (new_Connection name driver options next) calls).

(** The invariant of the two registries: the pairs carry the registered
    metadatas one for one and in order, every repository was constructed for
    the metadata it is paired with and for this connection, and the
    repositories are pairwise distinct objects allocated before [next]. *)
Definition paired (s : State) : Prop :=
  let (this, next) := s in
  map metadata (repositoryAndMetadatas this) = _entityMetadatas this /\
  Forall (fun p => repository_metadata (repository p) = metadata p /\
                   repository_connection (repository p) = this_ref this /\
                   repository_ref (repository p) < next)
         (repositoryAndMetadatas this) /\
  NoDup (map (fun p => repository_ref (repository p)) (repositoryAndMetadatas this)).

(** The subscribers handed to [addSubscribers] by a program, in order. *)
Fixpoint subscribed (calls : list Call) : list EventSubscriberInterface :=
  match calls with
  | [] => []
  | AddSubscribers subscribers :: rest => subscribers ++ subscribed rest
  | _ :: rest => subscribed rest
  end.

(** The listener metadatas handed to [addEntityListenerMetadatas] by a
    program, in order. *)
Fixpoint listened (calls : list Call) : list EntityListenerMetadata :=
  match calls with
  | [] => []
  | AddEntityListenerMetadatas metadatas :: rest => metadatas ++ listened rest
  | _ :: rest => listened rest
  end.

End Conn.

(** ** The sample: sample4-many-to-many/entity/PostCategory *)

Module Sample.

Definition PostCategory : ConstructorFunction := Class 1 "PostCategory".
Definition Post : ConstructorFunction := Class 2 "Post".

Definition PostCategory_prototype : JSObject := Prototype PostCategory.

(** The declared property types a compiler can emit as [design:type]. *)
Inductive PropertyType :=
| TNumber
| TString
| TBoolean
| TDate
| TObject
| TNone.

(** An instance of the reflection interface for the sample class: [id] is
    declared [number], [name] is declared [string], and nothing is recorded
    for any other property. *)
#[export] Instance reflection : Columns.Reflection := {|
  Columns.DesignType := PropertyType;
  Columns.design_type := fun _ propertyName =>
    if propertyName =? "id" then TNumber
    else if propertyName =? "name" then TString
    else TNone;
  Columns.typeToString := fun t =>
    match t with
    | TNumber => "number"
    | TString => "string"
    | TBoolean => "boolean"
    | TDate => "date"
    | TObject => "object"
    | TNone => "undefined"
    end;
  Columns.determineTypeFromFunction := fun t =>
    match t with
    | TNumber => Some "number"
    | TString => Some "string"
    | TBoolean => Some "boolean"
    | TDate => Some "datetime"
    | TObject => Some "json"
    | TNone => None
    end
|}.

(** [{ autoIncrement: true }] *)
Definition autoIncrementOptions : Columns.ColumnOptions :=
  {| Columns.type := None; Columns.nullable := None;
     Columns.autoIncrement := Some true;
     Columns.length := None; Columns.default := None; Columns.unique := None |}.

(** [{ nullable: true }] *)
Definition nullableOptions : Columns.ColumnOptions :=
  {| Columns.type := None; Columns.nullable := Some true;
     Columns.autoIncrement := None;
     Columns.length := None; Columns.default := None; Columns.unique := None |}.

Definition postCategoryMetadata : Conn.EntityMetadata :=
  {| Conn.metadata_ref := 10; Conn.target := PostCategory;
     Conn.tableName := "sample4_post_category" |}.

Definition postMetadata : Conn.EntityMetadata :=
  {| Conn.metadata_ref := 11; Conn.target := Post; Conn.tableName := "sample4_post" |}.

Definition sampleDriver : Conn.Driver :=
  {| Conn.driver_ref := 20; Conn.driver_connection := None |}.

Definition autoCreate : Conn.ConnectionOptions := {| Conn.autoSchemaCreate := Some true |}.

(** An environment in which the database accepts every call. *)
Definition healthy : Conn.Environment :=
  {| Conn.driver_connect := fun _ => Conn.Resolved tt;
     Conn.driver_disconnect := fun _ => Conn.Resolved tt;
     Conn.schemaCreator_create := fun _ => Conn.Resolved tt |}.

(** A connection with [PostCategory] registered. *)
Definition sampleConnection : Conn.Connection :=
  Conn.connection_after "default" sampleDriver autoCreate 100
    [Conn.AddEntityMetadatas [postCategoryMetadata]].

(** [PostCategory] registered by two calls with the same metadata object. *)
Definition twiceRegistered : Conn.Connection :=
  Conn.connection_after "default" sampleDriver autoCreate 100
    [Conn.AddEntityMetadatas [postCategoryMetadata];
     Conn.AddEntityMetadatas [postCategoryMetadata]].

(** A connection with [autoSchemaCreate: false] and [PostCategory]
    registered. *)
Definition manualConnection : Conn.Connection :=
  Conn.connection_after "manual" sampleDriver {| Conn.autoSchemaCreate := Some false |} 200
    [Conn.AddEntityMetadatas [postCategoryMetadata]].

End Sample.

(** * Properties of the [PrimaryColumn] decorator *)

Section ColumnsFacts.
Import Columns.
Context `{Reflection}.

(** The completion of one application, by the two checks in their order. *)
Lemma decorate_completion (c : Closure) (object : JSObject) (name : string) (s : MetadataStorage) :
  fst (decorate object name {| closure := c; defaultMetadataStorage := s |}) =
    if negb (truthy_string (type (resolvedOptions c object name)))
    then Throw (ColumnTypeUndefinedError object name)
    else if truthy_bool (nullable (resolvedOptions c object name))
         then Throw (PrimaryColumnCannotBeNullableError object name)
         else Normal tt.
Proof.
  destruct c as [ct co].
  unfold decorate, resolvedOptions, bind, when, read_type, write_type,
    read_options, write_options, storage_addColumnMetadata, throw, ret; cbn.
  destruct (truthy_string ct) eqn:Ect; cbn;
    destruct co as [o|]; cbn;
    repeat match goal with
           | |- context [truthy_string ?x] =>
               lazymatch x with
               | ct => fail
               | _ => destruct (truthy_string x) eqn:?; cbn
               end
           | |- context [truthy_bool ?x] => destruct (truthy_bool x) eqn:?; cbn
           end;
    try rewrite Ect; cbn; try reflexivity; try congruence.
Qed.

(** The storage after one application: one entry more on success, the same
    storage on a throw. *)
Lemma decorate_storage (c : Closure) (object : JSObject) (name : string) (s : MetadataStorage) :
  defaultMetadataStorage (snd (decorate object name {| closure := c; defaultMetadataStorage := s |})) =
    if negb (truthy_string (type (resolvedOptions c object name))) then s
    else if truthy_bool (nullable (resolvedOptions c object name)) then s
         else addColumnMetadata (registeredEntry c object name) s.
Proof.
  destruct c as [ct co].
  unfold decorate, registeredEntry, resolvedOptions, bind, when, read_type, write_type,
    read_options, write_options, storage_addColumnMetadata, throw, ret; cbn.
  destruct (truthy_string ct) eqn:Ect; cbn;
    destruct co as [o|]; cbn;
    repeat match goal with
           | |- context [truthy_string ?x] =>
               lazymatch x with
               | ct => fail
               | _ => destruct (truthy_string x) eqn:?; cbn
               end
           | |- context [truthy_bool ?x] => destruct (truthy_bool x) eqn:?; cbn
           end;
    try rewrite Ect; cbn; try reflexivity; try congruence.
Qed.

End ColumnsFacts.

Section PrimaryColumnProperties.
Import Columns.
Context `{Reflection}.

(** C3: a primary-column declaration whose options object has the nullable
    flag set, and whose type can be resolved (from the options, from the
    decorator argument or by inference), fails with
    PrimaryColumnCannotBeNullableError. *)
Theorem PrimaryColumn_nullable_rejected
    (c : Closure) (o : ColumnOptions) (object : JSObject) (name : string) (s : MetadataStorage) :
  closure_options c = Some o ->
  nullable o = Some true ->
  truthy_string (type o) = true \/
  truthy_string (closure_type c) = true \/
  truthy_string (determineTypeFromFunction (design_type object name)) = true ->
  fst (decorate object name {| closure := c; defaultMetadataStorage := s |}) =
    Throw (PrimaryColumnCannotBeNullableError object name).
Proof.
  intros Ho Hn Ht.
  rewrite decorate_completion.
  unfold resolvedOptions. rewrite Ho.
  destruct (truthy_string (type o)) eqn:Eo.
  - rewrite Eo, Hn. reflexivity.
  - cbn. destruct (truthy_string (closure_type c)) eqn:Ec.
    + rewrite Ec, Hn. reflexivity.
    + destruct Ht as [Ht | [Ht | Ht]]; try discriminate.
      rewrite Ht, Hn. reflexivity.
Qed.

(** C4: a declaration with no explicit type, neither as decorator argument
    nor in the column options, for which inference from the declared
    property type yields no type, fails with ColumnTypeUndefinedError. *)
Theorem PrimaryColumn_type_undefined
    (c : Closure) (object : JSObject) (name : string) (s : MetadataStorage) :
  truthy_string (closure_type c) = false ->
  (forall o, closure_options c = Some o -> truthy_string (type o) = false) ->
  truthy_string (determineTypeFromFunction (design_type object name)) = false ->
  fst (decorate object name {| closure := c; defaultMetadataStorage := s |}) =
    Throw (ColumnTypeUndefinedError object name).
Proof.
  intros Hc Ho Hi.
  rewrite decorate_completion.
  unfold resolvedOptions. rewrite Hc.
  destruct (closure_options c) as [o|] eqn:Eo.
  - rewrite (Ho o eq_refl). cbn. rewrite Hi. reflexivity.
  - cbn. rewrite Hi. reflexivity.
Qed.

(** C5: a primary column declared with nullable set to true throws, and
    whenever an application of the decorator throws, the error is one of
    ColumnTypeUndefinedError and PrimaryColumnCannotBeNullableError, no call
    to addColumnMetadata was made and the metadata storage is the one from
    before the call.  (A successful application makes exactly one call.) *)
Theorem PrimaryColumn_throws_before_storage
    (c : Closure) (object : JSObject) (name : string) (s : MetadataStorage) :
  let r := decorate object name {| closure := c; defaultMetadataStorage := s |} in
  (forall o, closure_options c = Some o -> nullable o = Some true ->
     exists e, fst r = Throw e) /\
  (forall e, fst r = Throw e ->
     (e = ColumnTypeUndefinedError object name \/
      e = PrimaryColumnCannotBeNullableError object name) /\
     defaultMetadataStorage (snd r) = s) /\
  (fst r = Normal tt ->
     columnMetadatas (defaultMetadataStorage (snd r)) =
       columnMetadatas s ++ [registeredEntry c object name]).
Proof.
  cbv zeta. rewrite decorate_completion, decorate_storage.
  split; [| split].
  - intros o Ho Hn.
    assert (Hr : nullable (resolvedOptions c object name) = Some true).
    { unfold resolvedOptions. rewrite Ho.
      destruct (truthy_string (type o)); cbn; exact Hn. }
    rewrite Hr. cbn.
    destruct (negb (truthy_string (type (resolvedOptions c object name)))); eauto.
  - intros e He.
    destruct (negb (truthy_string (type (resolvedOptions c object name)))).
    + inversion He. auto.
    + destruct (truthy_bool (nullable (resolvedOptions c object name))).
      * inversion He. auto.
      * discriminate.
  - intros Hok.
    destruct (negb (truthy_string (type (resolvedOptions c object name)))); [discriminate |].
    destruct (truthy_bool (nullable (resolvedOptions c object name))); [discriminate |].
    reflexivity.
Qed.

(** C9: when a primary-column declaration is nullable and has no resolvable
    type, it fails with ColumnTypeUndefinedError and not with
    PrimaryColumnCannotBeNullableError: the type check comes first. *)
Theorem PrimaryColumn_type_check_first
    (c : Closure) (o : ColumnOptions) (object : JSObject) (name : string) (s : MetadataStorage) :
  closure_options c = Some o ->
  nullable o = Some true ->
  truthy_string (type o) = false ->
  truthy_string (closure_type c) = false ->
  truthy_string (determineTypeFromFunction (design_type object name)) = false ->
  fst (decorate object name {| closure := c; defaultMetadataStorage := s |}) =
    Throw (ColumnTypeUndefinedError object name) /\
  fst (decorate object name {| closure := c; defaultMetadataStorage := s |}) <>
    Throw (PrimaryColumnCannotBeNullableError object name).
Proof.
  intros Ho Hn Hto Hc Hi.
  assert (E : fst (decorate object name {| closure := c; defaultMetadataStorage := s |}) =
              Throw (ColumnTypeUndefinedError object name)).
  { rewrite decorate_completion.
    unfold resolvedOptions. rewrite Ho, Hto, Hc. cbn. rewrite Hi. reflexivity. }
  split; [exact E | rewrite E; discriminate].
Qed.

End PrimaryColumnProperties.

(** ** The decorator on the sample class *)

Section PrimaryColumnOnSample.
Import Columns Sample.

(** [@PrimaryColumn("int", { autoIncrement: true }) id: number] registers one
    primary column whose options carry the given type. *)
Example PostCategory_id_registered :
  declare (ArgType "int") (Some autoIncrementOptions) PostCategory_prototype "id" emptyStorage =
    (Normal tt,
     {| closure := {| closure_type := Some "int";
                      closure_options := Some (set_type autoIncrementOptions (Some "int")) |};
        defaultMetadataStorage :=
          {| columnMetadatas :=
               [ {| target := PostCategory; propertyName := "id"; propertyType := "number";
                    isPrimaryKey := true;
                    options := set_type autoIncrementOptions (Some "int") |} ] |} |}).
Proof. reflexivity. Qed.

(** With no type argument the type is inferred from the declared one. *)
Example PostCategory_id_inferred :
  fst (declare (ArgOptions autoIncrementOptions) None PostCategory_prototype "id" emptyStorage) =
    Normal tt /\
  resolvedOptions (PrimaryColumn (ArgOptions autoIncrementOptions) None)
      PostCategory_prototype "id" =
    set_type autoIncrementOptions (Some "number").
Proof. split; reflexivity. Qed.

(** An options object behind an [undefined] first argument is dropped, its
    nullable flag with it. *)
Example options_after_undefined_dropped :
  fst (declare ArgUndefined (Some nullableOptions) PostCategory_prototype "id" emptyStorage) =
    Normal tt.
Proof. reflexivity. Qed.

(** The write of the type into the caller's options object happens before
    the checks, so it stays when the nullable check throws; the storage does
    not change. *)
Example nullable_throw_keeps_type_write :
  declare (ArgType "int") (Some nullableOptions) PostCategory_prototype "id" emptyStorage =
    (Throw (PrimaryColumnCannotBeNullableError PostCategory_prototype "id"),
     {| closure := {| closure_type := Some "int";
                      closure_options := Some (set_type nullableOptions (Some "int")) |};
        defaultMetadataStorage := emptyStorage |}).
Proof. reflexivity. Qed.

(** A second application of the same decorator function sees the type the
    first one guessed. *)
Example guessed_type_is_kept :
  let w1 := snd (declare ArgUndefined None PostCategory_prototype "id" emptyStorage) in
  closure_type (closure w1) = Some "number" /\
  fst (decorate PostCategory_prototype "unknown" w1) = Normal tt /\
  fst (declare ArgUndefined None PostCategory_prototype "unknown" emptyStorage) =
    Throw (ColumnTypeUndefinedError PostCategory_prototype "unknown").
Proof. repeat split; reflexivity. Qed.

Lemma PrimaryColumn_nullable_rejected_witness :
  closure_options (PrimaryColumn (ArgType "int") (Some nullableOptions)) = Some nullableOptions /\
  nullable nullableOptions = Some true /\
  truthy_string (closure_type (PrimaryColumn (ArgType "int") (Some nullableOptions))) = true /\
  fst (declare (ArgType "int") (Some nullableOptions) PostCategory_prototype "id" emptyStorage) =
    Throw (PrimaryColumnCannotBeNullableError PostCategory_prototype "id").
Proof.
  split; [reflexivity |]. split; [reflexivity |]. split; [reflexivity |].
  apply (PrimaryColumn_nullable_rejected
           (PrimaryColumn (ArgType "int") (Some nullableOptions)) nullableOptions
           PostCategory_prototype "id" emptyStorage);
    [reflexivity | reflexivity | right; left; reflexivity].
Defined.

Lemma PrimaryColumn_type_undefined_witness :
  truthy_string (closure_type (PrimaryColumn (ArgOptions autoIncrementOptions) None)) = false /\
  truthy_string (type autoIncrementOptions) = false /\
  truthy_string (determineTypeFromFunction (design_type PostCategory_prototype "unknown")) = false /\
  fst (declare (ArgOptions autoIncrementOptions) None PostCategory_prototype "unknown" emptyStorage) =
    Throw (ColumnTypeUndefinedError PostCategory_prototype "unknown").
Proof.
  split; [reflexivity |]. split; [reflexivity |]. split; [reflexivity |].
  apply (PrimaryColumn_type_undefined
           (PrimaryColumn (ArgOptions autoIncrementOptions) None)
           PostCategory_prototype "unknown" emptyStorage).
  - reflexivity.
  - intros o Ho. inversion Ho. reflexivity.
  - reflexivity.
Defined.

Lemma PrimaryColumn_throws_before_storage_witness :
  (exists e,
     fst (declare (ArgOptions nullableOptions) None PostCategory_prototype "id" emptyStorage) =
       Throw e) /\
  defaultMetadataStorage
    (snd (declare (ArgOptions nullableOptions) None PostCategory_prototype "id" emptyStorage)) =
    emptyStorage.
Proof.
  pose proof (PrimaryColumn_throws_before_storage
                (PrimaryColumn (ArgOptions nullableOptions) None)
                PostCategory_prototype "id" emptyStorage) as [Hthrows [Hkeeps _]].
  split.
  - apply (Hthrows nullableOptions); reflexivity.
  - apply (Hkeeps (PrimaryColumnCannotBeNullableError PostCategory_prototype "id")).
    reflexivity.
Defined.

Lemma PrimaryColumn_type_check_first_witness :
  closure_options (PrimaryColumn (ArgOptions nullableOptions) None) = Some nullableOptions /\
  nullable nullableOptions = Some true /\
  fst (declare (ArgOptions nullableOptions) None PostCategory_prototype "unknown" emptyStorage) =
    Throw (ColumnTypeUndefinedError PostCategory_prototype "unknown").
Proof.
  split; [reflexivity |]. split; [reflexivity |].
  apply (PrimaryColumn_type_check_first
           (PrimaryColumn (ArgOptions nullableOptions) None) nullableOptions
           PostCategory_prototype "unknown" emptyStorage); reflexivity.
Defined.

End PrimaryColumnOnSample.

(** * Properties of [Connection] *)

Section ConnectionFacts.
Import Conn.

Lemma same_class_true (a b : ConstructorFunction) : same_class a b = true <-> a = b.
Proof.
  unfold same_class. destruct (ConstructorFunction_eq_dec a b); split; congruence.
Qed.

Lemma same_metadata_true (a b : EntityMetadata) : same_metadata a b = true <-> a = b.
Proof.
  unfold same_metadata. destruct (EntityMetadata_eq_dec a b); split; congruence.
Qed.

(** The references of the repositories of a list of pairs. *)
Local Abbreviation repository_refs l := (map (fun p => repository_ref (repository p)) l).

(** What [metadatas.map(metadata => this.createRepoMeta(metadata))] builds:
    one pair per metadata, in order, each with a repository allocated at the
    next free reference. *)
Lemma createRepoMeta_map (this : Connection) (metadatas : list EntityMetadata) (next : Ref) :
  let r := alloc_map (createRepoMeta this) metadatas next in
  map metadata (fst r) = metadatas /\
  repository_refs (fst r) = seq next (List.length metadatas) /\
  snd r = next + List.length metadatas /\
  Forall (fun p => repository_metadata (repository p) = metadata p /\
                   repository_connection (repository p) = this_ref this) (fst r).
Proof.
  revert next. induction metadatas as [| m ms IH]; intros next; cbn.
  - repeat split; try lia. constructor.
  - specialize (IH (S next)). cbv zeta in IH.
    unfold alloc_bind, createRepoMeta, new_Repository, fresh, alloc_bind, alloc_ret in *; cbn.
    destruct (alloc_map _ ms (S next)) as [ps next'] eqn:E; cbn in *.
    destruct IH as (Hm & Hr & Hn & Hf).
    repeat split.
    + now rewrite Hm.
    + now rewrite Hr.
    + lia.
    + constructor; [split; reflexivity | exact Hf].
Qed.

(** One call, seen from the two registries. *)
Lemma step_registries (s : State) (c : Call) :
  this_ref (fst (step s c)) = this_ref (fst s) /\
  _entityMetadatas (fst (step s c)) = _entityMetadatas (fst s) ++ registered [c] /\
  snd (step s c) = snd s + List.length (registered [c]) /\
  exists pairs,
    repositoryAndMetadatas (fst (step s c)) = repositoryAndMetadatas (fst s) ++ pairs /\
    map metadata pairs = registered [c] /\
    repository_refs pairs = seq (snd s) (List.length (registered [c])) /\
    Forall (fun p => repository_metadata (repository p) = metadata p /\
                     repository_connection (repository p) = this_ref (fst s)) pairs.
Proof.
  destruct s as [this next].
  destruct c; cbn [step registered fst snd app List.length];
    try (rewrite ?app_nil_r, ?Nat.add_0_r;
         repeat split; try reflexivity;
         exists []; rewrite ?app_nil_r; repeat split; try reflexivity; constructor).
  unfold addEntityMetadatas, alloc_bind, alloc_ret.
  match goal with
  | |- context [alloc_map (createRepoMeta ?t) metadatas next] =>
      pose proof (createRepoMeta_map t metadatas next) as Hmap;
      destruct (alloc_map (createRepoMeta t) metadatas next) as [pairs next'] eqn:E
  end.
  cbn in *. destruct Hmap as (Hm & Hr & Hn & Hf).
  rewrite app_nil_r.
  repeat split; try assumption.
  exists pairs. repeat split; assumption.
Qed.

Lemma registered_app (calls1 calls2 : list Call) :
  registered (calls1 ++ calls2) = registered calls1 ++ registered calls2.
Proof.
  induction calls1 as [| c calls1 IH]; cbn; [reflexivity |].
  destruct c; try exact IH. rewrite IH. apply app_assoc.
Qed.

(** A program of calls, seen from the two registries. *)
Lemma run_registries (calls : list Call) (s : State) :
  this_ref (fst (run s calls)) = this_ref (fst s) /\
  _entityMetadatas (fst (run s calls)) = _entityMetadatas (fst s) ++ registered calls /\
  snd (run s calls) = snd s + List.length (registered calls) /\
  exists pairs,
    repositoryAndMetadatas (fst (run s calls)) = repositoryAndMetadatas (fst s) ++ pairs /\
    map metadata pairs = registered calls /\
    repository_refs pairs = seq (snd s) (List.length (registered calls)) /\
    Forall (fun p => repository_metadata (repository p) = metadata p /\
                     repository_connection (repository p) = this_ref (fst s)) pairs.
Proof.
  revert s. induction calls as [| c calls IH]; intros s.
  - cbn. rewrite app_nil_r, Nat.add_0_r. repeat split; try reflexivity.
    exists []. rewrite app_nil_r. repeat split; try reflexivity. constructor.
  - change (run s (c :: calls)) with (run (step s c) calls).
    change (c :: calls) with ([c] ++ calls). rewrite registered_app.
    destruct (IH (step s c)) as (Ht & Hm & Hn & ps2 & Hp2 & Hpm2 & Hpr2 & Hpf2).
    destruct (step_registries s c) as (Ht1 & Hm1 & Hn1 & ps1 & Hp1 & Hpm1 & Hpr1 & Hpf1).
    rewrite length_app.
    repeat split.
    + congruence.
    + rewrite Hm, Hm1. now rewrite app_assoc.
    + lia.
    + exists (ps1 ++ ps2). repeat split.
      * rewrite Hp2, Hp1. now rewrite app_assoc.
      * rewrite map_app. congruence.
      * rewrite map_app, Hpr1, Hpr2, Hn1. now rewrite seq_app.
      * apply Forall_app. split; [exact Hpf1 |].
        rewrite Ht1 in Hpf2. exact Hpf2.
Qed.

(** The registries of a new connection are empty and paired. *)
Lemma new_Connection_registries (name : string) (driver : Driver) (options : ConnectionOptions)
    (next : Ref) :
  _entityMetadatas (fst (new_Connection name driver options next)) = [] /\
  repositoryAndMetadatas (fst (new_Connection name driver options next)) = [] /\
  snd (new_Connection name driver options next) = S (S next) /\
  this_ref (fst (new_Connection name driver options next)) = next.
Proof. repeat split. Qed.

(** The invariant is kept by every program. *)
Lemma run_paired (calls : list Call) (s : State) : paired s -> paired (run s calls).
Proof.
  intros Hs.
  destruct (run_registries calls s) as (Ht & Hm & Hn & ps & Hp & Hpm & Hpr & Hpf).
  destruct s as [this next]; destruct (run (this, next) calls) as [this' next'] eqn:E.
  cbn [fst snd] in *. destruct Hs as (Hs1 & Hs2 & Hs3).
  unfold paired. rewrite Hp, Hm, Ht. repeat split.
  - rewrite map_app. congruence.
  - apply Forall_app. split.
    + eapply Forall_impl; [| exact Hs2]. cbn. intros p (? & ? & ?). repeat split; auto; lia.
    + rewrite Forall_forall in *. intros p Hin. destruct (Hpf p Hin) as [? ?].
      repeat split; auto.
      assert (Hr : In (repository_ref (repository p)) (repository_refs ps))
        by (apply in_map_iff; exists p; auto).
      rewrite Hpr in Hr. apply in_seq in Hr. lia.
  - rewrite map_app. apply NoDup_app; [exact Hs3 | rewrite Hpr; apply seq_NoDup |].
    intros r Hr1 Hr2. rewrite Hpr in Hr2. apply in_seq in Hr2.
    apply in_map_iff in Hr1. destruct Hr1 as (p & <- & Hin).
    rewrite Forall_forall in Hs2. destruct (Hs2 p Hin) as (_ & _ & Hlt). lia.
Qed.

Lemma new_Connection_paired (name : string) (driver : Driver) (options : ConnectionOptions)
    (next : Ref) :
  paired (new_Connection name driver options next).
Proof. cbn. repeat split; constructor. Qed.

(** In a paired state the lookup of a class that some registered metadata
    has as target finds the first such metadata, and its repository. *)
Lemma getRepository_paired (this : Connection) (next : Ref) (m : EntityMetadata) :
  paired (this, next) ->
  In m (_entityMetadatas this) ->
  exists p,
    In p (repositoryAndMetadatas this) /\
    find (fun x => same_class (target x) (target m)) (_entityMetadatas this) = Some (metadata p) /\
    getEntityMetadata this (target m) = Normal (metadata p) /\
    getRepository this (target m) = Normal (repository p) /\
    target (metadata p) = target m /\
    repository_metadata (repository p) = metadata p.
Proof.
  intros (Hmap & Hfor & _) Hin.
  unfold getRepository, getEntityMetadata, entityMetadatas.
  destruct (find (fun x => same_class (target x) (target m)) (_entityMetadatas this))
    as [m' |] eqn:Efind.
  - apply find_some in Efind. destruct Efind as [Hin' Htarget].
    apply same_class_true in Htarget.
    destruct (find (fun repoMeta => same_metadata (metadata repoMeta) m')
                   (repositoryAndMetadatas this)) as [p |] eqn:Epair.
    + apply find_some in Epair. destruct Epair as [Hp Hsame].
      apply same_metadata_true in Hsame. subst m'.
      rewrite Forall_forall in Hfor. destruct (Hfor p Hp) as (Hrm & _ & _).
      exists p. repeat split; auto.
    + exfalso. rewrite <- Hmap in Hin'. apply in_map_iff in Hin'.
      destruct Hin' as (p & Hpm & Hp).
      pose proof (find_none _ _ Epair p Hp) as Hno. cbn in Hno.
      rewrite Hpm in Hno.
      assert (same_metadata m' m' = true) by (apply same_metadata_true; reflexivity).
      congruence.
  - exfalso. pose proof (find_none _ _ Efind m Hin) as Hno. cbn in Hno.
    assert (same_class (target m) (target m) = true) by (apply same_class_true; reflexivity).
    congruence.
Qed.

(** Where the registered metadatas are pairwise distinct objects, a
    registered metadata has exactly one pair. *)
Lemma paired_exactly_one (this : Connection) (next : Ref) (m : EntityMetadata) :
  paired (this, next) ->
  NoDup (_entityMetadatas this) ->
  In m (_entityMetadatas this) ->
  exists p,
    (In p (repositoryAndMetadatas this) /\ metadata p = m) /\
    forall p', In p' (repositoryAndMetadatas this) /\ metadata p' = m -> p' = p.
Proof.
  intros (Hmap & _ & _) Hnd Hin.
  rewrite <- Hmap in Hnd, Hin. clear Hmap.
  induction (repositoryAndMetadatas this) as [| q qs IH]; [contradiction |].
  cbn in Hnd, Hin. inversion Hnd as [| ? ? Hq Hqs]; subst.
  destruct Hin as [Hq' | Hin].
  - exists q. split; [split; [now left | exact Hq'] |].
    intros p' [[-> | Hp'] Hm']; [reflexivity |].
    exfalso. apply Hq. rewrite Hq', <- Hm'. now apply in_map.
  - destruct (IH Hqs Hin) as (p & [Hp Hpm] & Huniq).
    exists p. split; [split; [now right | exact Hpm] |].
    intros p' [[<- | Hp'] Hm'].
    + exfalso. apply Hq. rewrite Hm'. exact Hin.
    + apply Huniq. split; assumption.
Qed.

(** A metadata has as many pairs as it has registrations. *)
Lemma paired_count (this : Connection) (next : Ref) (m : EntityMetadata) :
  paired (this, next) ->
  List.length (filter (fun p => same_metadata (metadata p) m) (repositoryAndMetadatas this)) =
    count_occ EntityMetadata_eq_dec (_entityMetadatas this) m.
Proof.
  intros (Hmap & _ & _). rewrite <- Hmap. clear Hmap.
  induction (repositoryAndMetadatas this) as [| q qs IH]; [reflexivity |].
  cbn. unfold same_metadata at 1.
  destruct (EntityMetadata_eq_dec (metadata q) m); cbn; rewrite IH; reflexivity.
Qed.

(** On a connection reached by a program of calls, getRepository never
    throws RepositoryNotFoundError: a class either has no metadata, and the
    metadata lookup throws, or has one, and then a pair holds it. *)
Lemma getRepository_completion (this : Connection) (next : Ref) (entityClass : ConstructorFunction) :
  paired (this, next) ->
  getRepository this entityClass = Throw (MetadataNotFoundError entityClass) \/
  exists r, getRepository this entityClass = Normal r.
Proof.
  intros Hp.
  destruct (find (fun x => same_class (target x) entityClass) (_entityMetadatas this))
    as [m |] eqn:Efind.
  - right. apply find_some in Efind. destruct Efind as [Hin Hsame].
    apply same_class_true in Hsame. subst entityClass.
    destruct (getRepository_paired this next m Hp Hin) as (p & _ & _ & _ & Hr & _).
    eauto.
  - left. unfold getRepository, getEntityMetadata, entityMetadatas. now rewrite Efind.
Qed.

End ConnectionFacts.

Section ConnectionProperties.
Import Conn.

Variables (name : string) (driver : Driver) (options : ConnectionOptions) (next : Ref).

(** C1, as amended: for every class that has not been registered via
    addEntityMetadatas, getRepository fails with MetadataNotFoundError, the
    error of the getEntityMetadata lookup it starts with. *)
Theorem getRepository_unregistered (calls : list Call) (entityClass : ConstructorFunction) :
  ~ In entityClass (map target (registered calls)) ->
  getRepository (connection_after name driver options next calls) entityClass =
    Throw (MetadataNotFoundError entityClass).
Proof.
  intros Hnot.
  unfold connection_after, getRepository, getEntityMetadata, entityMetadatas.
  destruct (run_registries calls (new_Connection name driver options next)) as (_ & Hm & _).
  rewrite Hm. cbn [new_Connection fst alloc_bind alloc_ret fresh new_EntityManager
                   _entityMetadatas app].
  destruct (find (fun metadata => same_class (target metadata) entityClass) (registered calls))
    as [m |] eqn:Efind; [| reflexivity].
  exfalso. apply find_some in Efind. destruct Efind as [Hin Hsame].
  apply same_class_true in Hsame. apply Hnot. apply in_map_iff. exists m. auto.
Qed.

(** C2: for every EntityMetadata registered via addEntityMetadatas with
    owning class C, getRepository(C) succeeds and returns the repository of a
    pair whose metadata has target C; that metadata is the first registered
    one whose target is identical to C, the one getEntityMetadata(C) returns,
    and the repository was constructed for it. *)
Theorem getRepository_registered (calls : list Call) (m : EntityMetadata) :
  In m (registered calls) ->
  let this := connection_after name driver options next calls in
  exists p,
    In p (repositoryAndMetadatas this) /\
    getRepository this (target m) = Normal (repository p) /\
    target (metadata p) = target m /\
    repository_metadata (repository p) = metadata p /\
    getEntityMetadata this (target m) = Normal (metadata p) /\
    find (fun x => same_class (target x) (target m)) (registered calls) = Some (metadata p).
Proof.
  intros Hin this. subst this. unfold connection_after.
  pose proof (run_paired calls _ (new_Connection_paired name driver options next)) as Hp.
  destruct (run_registries calls (new_Connection name driver options next)) as (_ & Hm & _).
  change (_entityMetadatas (fst (new_Connection name driver options next)))
    with (@nil EntityMetadata) in Hm.
  cbn [app] in Hm.
  destruct (run (new_Connection name driver options next) calls) as [this' next'].
  cbn [fst] in *. rewrite <- Hm in *.
  destruct (getRepository_paired this' next' m Hp Hin) as (p & H1 & H2 & H3 & H4 & H5 & H6).
  exists p. repeat split; assumption.
Qed.

(** C6, as amended: after every program of calls on a new connection every
    registration of an EntityMetadata has exactly one corresponding
    Repository.  The pairs carry the registered metadatas one for one and in
    order, each with a repository of its own constructed for it; a metadata
    has as many pairs as it has registrations, and exactly one where the
    registered metadatas are pairwise distinct.  One more call keeps this;
    addEntityMetadatas appends the given metadatas and one new pair with a
    newly allocated repository for each of them, and every other call leaves
    both collections as they are. *)
Theorem registries_paired (calls : list Call) (c : Call) :
  let s := run (new_Connection name driver options next) calls in
  paired s /\
  (forall m,
     List.length (filter (fun p => same_metadata (metadata p) m)
                         (repositoryAndMetadatas (fst s))) =
       count_occ EntityMetadata_eq_dec (_entityMetadatas (fst s)) m) /\
  (NoDup (_entityMetadatas (fst s)) ->
   forall m, In m (_entityMetadatas (fst s)) ->
     exists p,
       (In p (repositoryAndMetadatas (fst s)) /\ metadata p = m) /\
       forall p', In p' (repositoryAndMetadatas (fst s)) /\ metadata p' = m -> p' = p) /\
  paired (step s c) /\
  match c with
  | AddEntityMetadatas metadatas =>
      exists pairs,
        _entityMetadatas (fst (step s c)) = _entityMetadatas (fst s) ++ metadatas /\
        repositoryAndMetadatas (fst (step s c)) = repositoryAndMetadatas (fst s) ++ pairs /\
        map metadata pairs = metadatas /\
        map (fun p => repository_metadata (repository p)) pairs = metadatas /\
        map (fun p => repository_ref (repository p)) pairs = seq (snd s) (List.length metadatas)
  | _ =>
      _entityMetadatas (fst (step s c)) = _entityMetadatas (fst s) /\
      repositoryAndMetadatas (fst (step s c)) = repositoryAndMetadatas (fst s)
  end.
Proof.
  intros s.
  assert (Hs : paired s)
    by (apply run_paired, new_Connection_paired).
  split; [exact Hs |]. split; [| split; [| split]].
  - intros m. destruct s as [this next'].
    exact (paired_count this next' m Hs).
  - intros Hnd m Hin. destruct s as [this next'].
    exact (paired_exactly_one this next' m Hs Hnd Hin).
  - change (step s c) with (run s [c]). apply run_paired, Hs.
  - destruct (step_registries s c) as (_ & Hm & _ & ps & Hp & Hpm & Hpr & Hpf).
    destruct c; cbn [registered app] in *; rewrite ?app_nil_r in *;
      try (split; [exact Hm |];
           destruct ps; [now rewrite app_nil_r in Hp | discriminate]).
    exists ps. repeat split; try assumption.
    transitivity (map metadata ps); [| exact Hpm]. apply map_ext_in. intros p Hin.
    rewrite Forall_forall in Hpf. now destruct (Hpf p Hin).
Qed.

(** C7: connect() first calls the driver's connect.  If that is rejected,
    nothing else is called and connect() is rejected with the same reason.
    If it resolves and autoSchemaCreate is true, the schema creator's
    create() is called next and connect() settles as create() does; if the
    option is not true, create() is not called and connect() resolves.  So
    connect() resolves exactly when the driver's connect resolved and, with
    the option on, create() resolved too. *)
Theorem connect_order (env : Environment) (this : Connection) :
  let d := _driver this in
  let sc := {| schemaCreator_connection := this_ref this |} in
  (exists rest, fst (connect env this) = DriverConnect d :: rest) /\
  (forall reason,
     driver_connect env d = Rejected reason ->
     connect env this = ([DriverConnect d], Rejected reason)) /\
  (driver_connect env d = Resolved tt ->
   autoSchemaCreate (_options this) = Some true ->
   connect env this =
     ([DriverConnect d; SchemaCreatorCreate sc], schemaCreator_create env sc)) /\
  (driver_connect env d = Resolved tt ->
   autoSchemaCreate (_options this) <> Some true ->
   connect env this = ([DriverConnect d], Resolved tt)) /\
  (snd (connect env this) = Resolved tt <->
   driver_connect env d = Resolved tt /\
   (autoSchemaCreate (_options this) = Some true ->
    schemaCreator_create env sc = Resolved tt)).
Proof.
  cbv zeta.
  unfold connect, then_, call_driver_connect, call_schemaCreator_create, resolved,
    new_SchemaCreator.
  destruct (driver_connect env (_driver this)) as [[] | reason] eqn:Ed.
  - destruct (autoSchemaCreate (_options this)) as [[|] |] eqn:Eauto; cbn.
    + split; [eauto |]. split; [discriminate |]. split; [reflexivity |].
      split; [congruence |].
      split; [intros Hr; split; auto | intros [_ Hr]; auto].
    + split; [eauto |]. split; [discriminate |]. split; [discriminate |].
      split; [reflexivity |].
      split; [intros _; split; [reflexivity | discriminate] | reflexivity].
    + split; [eauto |]. split; [discriminate |]. split; [discriminate |].
      split; [reflexivity |].
      split; [intros _; split; [reflexivity | discriminate] | reflexivity].
  - cbn. split; [eauto |]. split; [intros r [= <-]; reflexivity |].
    split; [discriminate |]. split; [discriminate |].
    split; [discriminate | intros [Hd _]; discriminate].
Qed.

(** C8: after any program of calls, the repositories getter returns one
    repository per registered EntityMetadata in registration order: the i-th
    repository is the i-th one allocated and was constructed for the i-th
    metadata handed to addEntityMetadatas. *)
Theorem repositories_in_registration_order (calls : list Call) :
  let this := connection_after name driver options next calls in
  map repository_metadata (repositories this) = registered calls /\
  map repository_metadata (repositories this) = entityMetadatas this /\
  map repository_ref (repositories this) =
    seq (snd (new_Connection name driver options next)) (List.length (registered calls)) /\
  List.length (repositories this) = List.length (registered calls).
Proof.
  cbv zeta. unfold connection_after, repositories, entityMetadatas.
  destruct (run_registries calls (new_Connection name driver options next))
    as (_ & Hm & _ & ps & Hp & Hpm & Hpr & Hpf).
  change (repositoryAndMetadatas (fst (new_Connection name driver options next)))
    with (@nil RepositoryAndMetadata) in Hp.
  change (_entityMetadatas (fst (new_Connection name driver options next)))
    with (@nil EntityMetadata) in Hm.
  cbn [app] in Hp, Hm. rewrite Hp, Hm, !map_map, length_map.
  assert (Hrm : map (fun p => repository_metadata (repository p)) ps = registered calls).
  { rewrite <- Hpm. apply map_ext_in. intros p Hin.
    rewrite Forall_forall in Hpf. now destruct (Hpf p Hin). }
  repeat split; try assumption.
  rewrite <- Hpm. now rewrite length_map.
Qed.

(** C10: addSubscribers changes only the subscribers list and
    addEntityListenerMetadatas changes only the entity-listener list: the
    registered entity metadatas, the repository/metadata pairs, the driver,
    the options and the other list are unchanged, and so are the name and
    the entity manager; each list grows by the given elements. *)
Theorem registration_frame (this : Connection)
    (subs : list EventSubscriberInterface) (listeners : list EntityListenerMetadata) :
  (subscribers (addSubscribers this subs) = subscribers this ++ subs /\
   entityMetadatas (addSubscribers this subs) = entityMetadatas this /\
   repositoryAndMetadatas (addSubscribers this subs) = repositoryAndMetadatas this /\
   Conn.driver (addSubscribers this subs) = Conn.driver this /\
   Conn.options (addSubscribers this subs) = Conn.options this /\
   entityListeners (addSubscribers this subs) = entityListeners this /\
   Conn.name (addSubscribers this subs) = Conn.name this /\
   getEntityManager (addSubscribers this subs) = getEntityManager this) /\
  (entityListeners (addEntityListenerMetadatas this listeners) =
     entityListeners this ++ listeners /\
   entityMetadatas (addEntityListenerMetadatas this listeners) = entityMetadatas this /\
   repositoryAndMetadatas (addEntityListenerMetadatas this listeners) =
     repositoryAndMetadatas this /\
   Conn.driver (addEntityListenerMetadatas this listeners) = Conn.driver this /\
   Conn.options (addEntityListenerMetadatas this listeners) = Conn.options this /\
   subscribers (addEntityListenerMetadatas this listeners) = subscribers this /\
   Conn.name (addEntityListenerMetadatas this listeners) = Conn.name this /\
   getEntityManager (addEntityListenerMetadatas this listeners) = getEntityManager this).
Proof. repeat split. Qed.

End ConnectionProperties.

(** ** The connection on the sample class *)

Section ConnectionOnSample.
Import Conn Sample.

(** The repository of [PostCategory] on the sample connection: the first
    object allocated after the connection and its entity manager. *)
Example sample_getRepository :
  getRepository sampleConnection PostCategory =
    Normal {| repository_ref := 102; repository_connection := 100;
              repository_metadata := postCategoryMetadata |}.
Proof. reflexivity. Qed.

(** Registering the same metadata object twice gives it two pairs, each with
    a repository of its own; the lookup returns the first. *)
Example same_metadata_registered_twice :
  let this := connection_after "default" sampleDriver autoCreate 100
                [AddEntityMetadatas [postCategoryMetadata];
                 AddEntityMetadatas [postCategoryMetadata]] in
  entityMetadatas this = [postCategoryMetadata; postCategoryMetadata] /\
  map repository_ref (repositories this) = [102; 103] /\
  getRepository this PostCategory =
    Normal {| repository_ref := 102; repository_connection := 100;
              repository_metadata := postCategoryMetadata |}.
Proof. repeat split; reflexivity. Qed.

(** With [autoSchemaCreate: true] and a healthy database, [connect()] calls
    the driver and then the schema creator, and resolves. *)
Example sample_connect :
  connect healthy sampleConnection =
    ([DriverConnect {| driver_ref := 20; driver_connection := Some 100 |};
      SchemaCreatorCreate {| schemaCreator_connection := 100 |}],
     Resolved tt).
Proof. reflexivity. Qed.

(** A failing driver: the schema creator is never called. *)
Example sample_connect_rejected :
  connect {| driver_connect := fun _ => Rejected "ECONNREFUSED";
             driver_disconnect := fun _ => Resolved tt;
             schemaCreator_create := fun _ => Resolved tt |} sampleConnection =
    ([DriverConnect {| driver_ref := 20; driver_connection := Some 100 |}],
     Rejected "ECONNREFUSED").
Proof. reflexivity. Qed.

(** C1 as stated fails: [Post] was never registered on the sample
    connection, and getRepository(Post) throws MetadataNotFoundError, which
    is not RepositoryNotFoundError. *)
Lemma getRepository_unregistered_counterexample :
  ~ In Post (map target (registered [AddEntityMetadatas [postCategoryMetadata]])) /\
  getRepository sampleConnection Post = Throw (MetadataNotFoundError Post) /\
  getRepository sampleConnection Post <> Throw (RepositoryNotFoundError Post).
Proof.
  split; [| split].
  - cbn. intros [Heq | []]. discriminate Heq.
  - reflexivity.
  - discriminate.
Qed.

Lemma getRepository_unregistered_witness :
  ~ In Post (map target (registered [AddEntityMetadatas [postCategoryMetadata]])) /\
  getRepository
    (connection_after "default" sampleDriver autoCreate 100
       [AddEntityMetadatas [postCategoryMetadata]]) Post =
    Throw (MetadataNotFoundError Post).
Proof.
  assert (Hnot : ~ In Post (map target (registered [AddEntityMetadatas [postCategoryMetadata]]))).
  { cbn. intros [Heq | []]. discriminate Heq. }
  split; [exact Hnot |].
  apply (getRepository_unregistered "default" sampleDriver autoCreate 100
           [AddEntityMetadatas [postCategoryMetadata]] Post Hnot).
Defined.

Lemma getRepository_registered_witness :
  In postCategoryMetadata
     (registered [AddEntityMetadatas [postMetadata]; GetRepositories;
                  AddEntityMetadatas [postCategoryMetadata]]) /\
  exists p,
    getRepository
      (connection_after "default" sampleDriver autoCreate 100
         [AddEntityMetadatas [postMetadata]; GetRepositories;
          AddEntityMetadatas [postCategoryMetadata]]) PostCategory =
      Normal (repository p) /\
    target (metadata p) = PostCategory.
Proof.
  assert (Hin : In postCategoryMetadata
                   (registered [AddEntityMetadatas [postMetadata]; GetRepositories;
                                AddEntityMetadatas [postCategoryMetadata]])).
  { cbn. right. left. reflexivity. }
  split; [exact Hin |].
  destruct (getRepository_registered "default" sampleDriver autoCreate 100 _ _ Hin)
    as (p & _ & Hget & Htarget & _).
  exists p. split; [exact Hget | exact Htarget].
Defined.

Lemma registries_paired_witness :
  NoDup (_entityMetadatas sampleConnection) /\
  In postCategoryMetadata (_entityMetadatas sampleConnection) /\
  exists p,
    (In p (repositoryAndMetadatas sampleConnection) /\ metadata p = postCategoryMetadata) /\
    forall p',
      In p' (repositoryAndMetadatas sampleConnection) /\ metadata p' = postCategoryMetadata ->
      p' = p.
Proof.
  assert (Hnd : NoDup (_entityMetadatas sampleConnection)).
  { cbn. constructor; [intros [] | constructor]. }
  assert (Hin : In postCategoryMetadata (_entityMetadatas sampleConnection)).
  { cbn. left. reflexivity. }
  split; [exact Hnd |]. split; [exact Hin |].
  destruct (registries_paired "default" sampleDriver autoCreate 100
              [AddEntityMetadatas [postCategoryMetadata]] GetRepositories)
    as (_ & _ & Hone & _).
  exact (Hone Hnd postCategoryMetadata Hin).
Defined.

Lemma connect_order_witness :
  (driver_connect healthy (_driver sampleConnection) = Resolved tt /\
   autoSchemaCreate (_options sampleConnection) = Some true /\
   connect healthy sampleConnection =
     ([DriverConnect {| driver_ref := 20; driver_connection := Some 100 |};
       SchemaCreatorCreate {| schemaCreator_connection := 100 |}],
      Resolved tt)) /\
  (driver_connect healthy (_driver manualConnection) = Resolved tt /\
   autoSchemaCreate (_options manualConnection) <> Some true /\
   connect healthy manualConnection =
     ([DriverConnect {| driver_ref := 20; driver_connection := Some 200 |}],
      Resolved tt)).
Proof.
  split.
  - split; [reflexivity |]. split; [reflexivity |].
    destruct (connect_order healthy sampleConnection) as (_ & _ & Hon & _).
    exact (Hon eq_refl eq_refl).
  - assert (Hoff : autoSchemaCreate (_options manualConnection) <> Some true)
      by (cbn; discriminate).
    split; [reflexivity |]. split; [exact Hoff |].
    destruct (connect_order healthy manualConnection) as (_ & _ & _ & Hoff' & _).
    exact (Hoff' eq_refl Hoff).
Defined.

(** C6 as stated fails: after two calls of addEntityMetadatas with the same
    metadata object, that registered metadata has two pairs with two
    distinct repositories, not exactly one. *)
Lemma registries_paired_counterexample :
  In postCategoryMetadata (entityMetadatas twiceRegistered) /\
  map repository_ref (repositories twiceRegistered) = [102; 103] /\
  map repository_metadata (repositories twiceRegistered) =
    [postCategoryMetadata; postCategoryMetadata] /\
  ~ (exists p,
       (In p (repositoryAndMetadatas twiceRegistered) /\ metadata p = postCategoryMetadata) /\
       forall p',
         In p' (repositoryAndMetadatas twiceRegistered) /\ metadata p' = postCategoryMetadata ->
         p' = p).
Proof.
  split; [left; reflexivity |]. split; [reflexivity |]. split; [reflexivity |].
  intros (p & _ & Huniq).
  pose (p1 := {| repository := {| repository_ref := 102; repository_connection := 100;
                                  repository_metadata := postCategoryMetadata |};
                 metadata := postCategoryMetadata |}).
  pose (p2 := {| repository := {| repository_ref := 103; repository_connection := 100;
                                  repository_metadata := postCategoryMetadata |};
                 metadata := postCategoryMetadata |}).
  assert (H1 : p1 = p) by (apply Huniq; split; [left; reflexivity | reflexivity]).
  assert (H2 : p2 = p) by (apply Huniq; split; [right; left; reflexivity | reflexivity]).
  rewrite <- H2 in H1. discriminate H1.
Qed.

End ConnectionOnSample.

(** * Further properties of the [PrimaryColumn] decorator *)

Section PrimaryColumnFurther.
Import Columns.
Context `{Reflection}.

(** The captured variables after one application, thrown or not: the type
    variable holds the guess when it was falsy, and the options object, when
    there is one, has its type filled in when that was falsy. *)
Lemma decorate_closure (c : Closure) (object : JSObject) (name : string) (s : MetadataStorage) :
  closure (snd (decorate object name {| closure := c; defaultMetadataStorage := s |})) =
    {| closure_type :=
         if truthy_string (closure_type c) then closure_type c
         else determineTypeFromFunction (design_type object name);
       closure_options :=
         match closure_options c with
         | Some _ => Some (resolvedOptions c object name)
         | None => None
         end |}.
Proof.
  destruct c as [ct co].
  unfold decorate, resolvedOptions, bind, when, read_type, write_type,
    read_options, write_options, storage_addColumnMetadata, throw, ret; cbn.
  destruct (truthy_string ct) eqn:Ect; cbn;
    destruct co as [o |]; cbn;
    repeat match goal with
           | |- context [truthy_string ?x] =>
               lazymatch x with
               | ct => fail
               | _ => destruct (truthy_string x) eqn:?; cbn
               end
           | |- context [truthy_bool ?x] => destruct (truthy_bool x) eqn:?; cbn
           end;
    try rewrite Ect; cbn; try reflexivity; try congruence.
Qed.

(** Once the resolved options carry a type, they are what the captured
    variables resolve to from then on, for any property. *)
Lemma resolvedOptions_kept (c : Closure) (object object2 : JSObject) (name name2 : string)
    (s : MetadataStorage) :
  truthy_string (type (resolvedOptions c object name)) = true ->
  resolvedOptions
    (closure (snd (decorate object name {| closure := c; defaultMetadataStorage := s |})))
    object2 name2 =
  resolvedOptions c object name.
Proof.
  rewrite decorate_closure. destruct c as [ct co].
  unfold resolvedOptions; cbn.
  destruct co as [o |]; cbn.
  - destruct (truthy_string (type o)) eqn:Eo; cbn.
    + rewrite Eo. reflexivity.
    + intros Ht. rewrite Ht. reflexivity.
  - destruct (truthy_string ct) eqn:Ect; cbn.
    + rewrite Ect. reflexivity.
    + intros Ht. rewrite Ht. reflexivity.
Qed.

(** X1: one application adds at most one entry to the storage and leaves
    the entries already there in place; it adds none exactly when it throws;
    an added entry is a primary key of the decorated class and property,
    with a type and without the nullable flag. *)
Theorem PrimaryColumn_registers_valid_keys
    (c : Closure) (object : JSObject) (name : string) (s : MetadataStorage) :
  let r := decorate object name {| closure := c; defaultMetadataStorage := s |} in
  exists added,
    columnMetadatas (defaultMetadataStorage (snd r)) = columnMetadatas s ++ added /\
    List.length added <= 1 /\
    (added = [] <-> exists e, fst r = Throw e) /\
    Forall (fun entry =>
              isPrimaryKey entry = true /\
              target entry = constructor_of object /\
              propertyName entry = name /\
              propertyType entry = typeToString (design_type object name) /\
              truthy_string (type (options entry)) = true /\
              truthy_bool (nullable (options entry)) = false) added.
Proof.
  cbv zeta. rewrite decorate_completion, decorate_storage.
  destruct (truthy_string (type (resolvedOptions c object name))) eqn:Et; cbn.
  - destruct (truthy_bool (nullable (resolvedOptions c object name))) eqn:En.
    + exists []. rewrite app_nil_r.
      split; [reflexivity |]. split; [cbn; lia |]. split; [split; eauto |]. constructor.
    + exists [registeredEntry c object name].
      split; [reflexivity |]. split; [cbn; lia |]. split.
      * split; [discriminate | intros [e He]; discriminate].
      * constructor; [| constructor]. cbn. repeat split; assumption.
  - exists []. rewrite app_nil_r.
    split; [reflexivity |]. split; [cbn; lia |]. split; [split; eauto |]. constructor.
Qed.

(** X2: the type of a registered column is the type in the options object
    when that is truthy, else the type argument when that is truthy, else
    the type inferred from the declared property type; the other option
    fields are those of the options object, or undefined when none was
    given. *)
Theorem PrimaryColumn_type_precedence
    (c : Closure) (object : JSObject) (name : string) (s : MetadataStorage) :
  let r := decorate object name {| closure := c; defaultMetadataStorage := s |} in
  let given := match closure_options c with Some o => o | None => emptyOptions end in
  fst r = Normal tt ->
  exists entry,
    columnMetadatas (defaultMetadataStorage (snd r)) = columnMetadatas s ++ [entry] /\
    type (options entry) =
      (if truthy_string (type given) then type given
       else if truthy_string (closure_type c) then closure_type c
            else determineTypeFromFunction (design_type object name)) /\
    nullable (options entry) = nullable given /\
    autoIncrement (options entry) = autoIncrement given /\
    length (options entry) = length given /\
    default (options entry) = default given /\
    unique (options entry) = unique given.
Proof.
  cbv zeta. rewrite decorate_completion, decorate_storage.
  destruct (negb (truthy_string (type (resolvedOptions c object name)))); [discriminate |].
  destruct (truthy_bool (nullable (resolvedOptions c object name))); [discriminate |].
  intros _. exists (registeredEntry c object name). split; [reflexivity |].
  unfold registeredEntry, resolvedOptions; cbn.
  destruct (truthy_string (type match closure_options c with
                                | Some o => o
                                | None => emptyOptions
                                end)); cbn; repeat split; reflexivity.
Qed.

(** X3: an application writes nothing into the caller's options object but
    its type, and that only when the type there is falsy; when no options
    object was given, none is captured afterwards.  This holds whether the
    application returns or throws. *)
Theorem decorate_options_object_frame
    (c : Closure) (object : JSObject) (name : string) (s : MetadataStorage) :
  let after :=
    closure_options
      (closure (snd (decorate object name {| closure := c; defaultMetadataStorage := s |}))) in
  match closure_options c with
  | None => after = None
  | Some o =>
      exists o',
        after = Some o' /\
        nullable o' = nullable o /\
        autoIncrement o' = autoIncrement o /\
        length o' = length o /\
        default o' = default o /\
        unique o' = unique o /\
        (truthy_string (type o) = true -> o' = o) /\
        (truthy_string (type o) = false ->
         type o' = if truthy_string (closure_type c) then closure_type c
                   else determineTypeFromFunction (design_type object name))
  end.
Proof.
  cbv zeta. rewrite decorate_closure. cbn.
  destruct (closure_options c) as [o |] eqn:Eo; [| reflexivity].
  exists (resolvedOptions c object name). split; [reflexivity |].
  unfold resolvedOptions. rewrite Eo.
  destruct (truthy_string (type o)); cbn; repeat split; try reflexivity; discriminate.
Qed.

(** X4: once an application of a decorator function has returned normally,
    every later application of the same function, to any property, returns
    normally as well and registers an entry with the same options. *)
Theorem decorate_success_is_kept
    (c : Closure) (object object2 : JSObject) (name name2 : string) (s : MetadataStorage) :
  let r1 := decorate object name {| closure := c; defaultMetadataStorage := s |} in
  let r2 := decorate object2 name2 (snd r1) in
  fst r1 = Normal tt ->
  fst r2 = Normal tt /\
  exists entry1 entry2,
    columnMetadatas (defaultMetadataStorage (snd r2)) = columnMetadatas s ++ [entry1; entry2] /\
    options entry2 = options entry1 /\
    propertyName entry1 = name /\
    propertyName entry2 = name2.
Proof.
  cbv zeta.
  pose proof (decorate_storage c object name s) as Hs1.
  pose proof (resolvedOptions_kept c object object2 name name2 s) as Hkept.
  rewrite (decorate_completion c object name s).
  destruct (snd (decorate object name {| closure := c; defaultMetadataStorage := s |}))
    as [c1 s1]. cbn [closure defaultMetadataStorage] in *.
  rewrite decorate_completion, decorate_storage.
  destruct (truthy_string (type (resolvedOptions c object name))) eqn:Et; cbn [negb];
    [| discriminate].
  destruct (truthy_bool (nullable (resolvedOptions c object name))) eqn:En; [discriminate |].
  intros _. rewrite (Hkept eq_refl), Et, En. cbn [negb].
  split; [reflexivity |].
  exists (registeredEntry c object name), (registeredEntry c1 object2 name2).
  subst s1. cbn. rewrite <- app_assoc. cbn.
  repeat split. apply Hkept. reflexivity.
Qed.

(** X5: behind an undefined first argument the second argument is not
    used: the application behaves as that of [PrimaryColumn()], so it never
    throws PrimaryColumnCannotBeNullableError, and it throws
    ColumnTypeUndefinedError exactly when inference yields no type. *)
Theorem PrimaryColumn_undefined_first_argument
    (opts : option ColumnOptions) (object : JSObject) (name : string) (s : MetadataStorage) :
  declare ArgUndefined opts object name s = declare ArgUndefined None object name s /\
  fst (declare ArgUndefined opts object name s) <>
    Throw (PrimaryColumnCannotBeNullableError object name) /\
  (fst (declare ArgUndefined opts object name s) = Throw (ColumnTypeUndefinedError object name) <->
   truthy_string (determineTypeFromFunction (design_type object name)) = false).
Proof.
  split; [reflexivity |].
  unfold declare. rewrite decorate_completion.
  unfold resolvedOptions; cbn.
  destruct (truthy_string (determineTypeFromFunction (design_type object name))); cbn.
  - split; [discriminate | split; discriminate].
  - split; [discriminate | split; reflexivity].
Qed.

End PrimaryColumnFurther.

(** * Further properties of [Connection] *)

Section ConnectionFurther.
Import Conn.

(** [find] returns the first element that passes the test. *)
Lemma find_first {A} (f : A -> bool) (l : list A) (x : A) :
  find f l = Some x ->
  exists before after,
    l = before ++ x :: after /\ f x = true /\ Forall (fun y => f y = false) before.
Proof.
  induction l as [| a l IH]; cbn; [discriminate |].
  destruct (f a) eqn:Ea.
  - intros [= ->]. exists [], l. repeat split; [exact Ea | constructor].
  - intros Hf. destruct (IH Hf) as (before & after & -> & Hx & Hb).
    exists (a :: before), after. repeat split; [exact Hx | constructor; assumption].
Qed.

(** A match found in a list is still the one found after appending. *)
Lemma find_app_some {A} (f : A -> bool) (l l' : list A) (x : A) :
  find f l = Some x -> find f (l ++ l') = Some x.
Proof.
  induction l as [| a l IH]; cbn; [discriminate |].
  destruct (f a); [trivial | exact IH].
Qed.

Lemma same_class_false (a b : ConstructorFunction) : same_class a b = false <-> a <> b.
Proof.
  unfold same_class. destruct (ConstructorFunction_eq_dec a b); split; congruence.
Qed.

(** [createRepoMeta] uses nothing of the connection but its identity. *)
Lemma createRepoMeta_map_ext (this this' : Connection) (metadatas : list EntityMetadata)
    (next : Ref) :
  this_ref this = this_ref this' ->
  alloc_map (createRepoMeta this) metadatas next =
  alloc_map (createRepoMeta this') metadatas next.
Proof.
  intros Href. revert next. induction metadatas as [| m ms IH]; intros next; cbn.
  - reflexivity.
  - unfold alloc_bind, createRepoMeta, new_Repository, fresh, alloc_ret; cbn.
    rewrite IH, Href. reflexivity.
Qed.

Lemma createRepoMeta_map_app (this : Connection) (a b : list EntityMetadata) (next : Ref) :
  alloc_map (createRepoMeta this) (a ++ b) next =
    let (pa, next1) := alloc_map (createRepoMeta this) a next in
    let (pb, next2) := alloc_map (createRepoMeta this) b next1 in
    (pa ++ pb, next2).
Proof.
  generalize (createRepoMeta this). intros f.
  revert next. induction a as [| m a IH]; intros next; cbn.
  - unfold alloc_ret. destruct (alloc_map f b next). reflexivity.
  - unfold alloc_bind, alloc_ret. destruct (f m next) as [y next0].
    rewrite IH.
    destruct (alloc_map f a next0) as [pa next1].
    destruct (alloc_map f b next1) as [pb next2].
    reflexivity.
Qed.

(** [addEntityMetadatas] in one piece: the pairs are built for this
    connection and both lists grow. *)
Lemma addEntityMetadatas_eq (this : Connection) (metadatas : list EntityMetadata) (free : Ref) :
  addEntityMetadatas this metadatas free =
    let (pairs, free') := alloc_map (createRepoMeta this) metadatas free in
    ({| this_ref := this_ref this;
        _name := _name this;
        _driver := _driver this;
        _entityMetadatas := _entityMetadatas this ++ metadatas;
        _entityListenerMetadatas := _entityListenerMetadatas this;
        _subscribers := _subscribers this;
        repositoryAndMetadatas := repositoryAndMetadatas this ++ pairs;
        _options := _options this;
        entityManager := entityManager this |}, free').
Proof.
  unfold addEntityMetadatas, alloc_bind, alloc_ret.
  match goal with
  | |- context [alloc_map (createRepoMeta ?t) metadatas free] =>
      rewrite (createRepoMeta_map_ext t this metadatas free eq_refl)
  end.
  destruct (alloc_map (createRepoMeta this) metadatas free) as [pairs free'].
  reflexivity.
Qed.

(** What a program leaves of the fields other than the two registries. *)
Lemma run_other_fields (calls : list Call) (s : State) :
  _name (fst (run s calls)) = _name (fst s) /\
  _driver (fst (run s calls)) = _driver (fst s) /\
  _options (fst (run s calls)) = _options (fst s) /\
  entityManager (fst (run s calls)) = entityManager (fst s) /\
  _subscribers (fst (run s calls)) = _subscribers (fst s) ++ subscribed calls /\
  _entityListenerMetadatas (fst (run s calls)) =
    _entityListenerMetadatas (fst s) ++ listened calls.
Proof.
  revert s. induction calls as [| c calls IH]; intros s.
  - cbn. rewrite !app_nil_r. repeat split.
  - change (run s (c :: calls)) with (run (step s c) calls).
    destruct (IH (step s c)) as (Hn & Hd & Ho & He & Hs & Hl).
    rewrite Hn, Hd, Ho, He, Hs, Hl. clear.
    destruct s as [this next].
    destruct c; cbn [step fst subscribed listened]; rewrite ?app_assoc;
      try (repeat split; reflexivity).
    unfold addEntityMetadatas, alloc_bind, alloc_ret.
    destruct (alloc_map _ metadatas next) as [pairs next']. cbn.
    repeat split; reflexivity.
Qed.

Variables (name : string) (driver : Driver) (options : ConnectionOptions) (next : Ref).

(** X6: getEntityMetadata returns the first registered metadata whose
    target is identical to the class, and throws MetadataNotFoundError for
    that class exactly when no registered metadata has it as target. *)
Theorem getEntityMetadata_first_match (this : Connection) (entityClass : ConstructorFunction) :
  match getEntityMetadata this entityClass with
  | Normal m =>
      exists before after,
        entityMetadatas this = before ++ m :: after /\
        target m = entityClass /\
        Forall (fun x => target x <> entityClass) before
  | Throw e =>
      e = MetadataNotFoundError entityClass /\
      Forall (fun x => target x <> entityClass) (entityMetadatas this)
  end.
Proof.
  unfold getEntityMetadata.
  destruct (find (fun metadata => same_class (target metadata) entityClass)
                 (entityMetadatas this)) as [m |] eqn:Efind.
  - destruct (find_first _ _ _ Efind) as (before & after & Hl & Hm & Hb).
    exists before, after. split; [exact Hl |]. split; [now apply same_class_true |].
    eapply Forall_impl; [| exact Hb]. intros x Hx. now apply same_class_false.
  - split; [reflexivity |]. apply Forall_forall. intros x Hin.
    apply same_class_false. exact (find_none _ _ Efind x Hin).
Qed.

(** X7: on a connection reached by a program of calls, getRepository fails
    only together with getEntityMetadata and with its MetadataNotFoundError,
    never with RepositoryNotFoundError; when it returns, the repository is
    one of the connection's and was constructed for the metadata that
    getEntityMetadata returns for the class. *)
Theorem getRepository_follows_getEntityMetadata (calls : list Call)
    (entityClass : ConstructorFunction) :
  let this := connection_after name driver options next calls in
  match getRepository this entityClass with
  | Throw e =>
      e = MetadataNotFoundError entityClass /\
      getEntityMetadata this entityClass = Throw e
  | Normal r =>
      In r (repositories this) /\
      getEntityMetadata this entityClass = Normal (repository_metadata r) /\
      target (repository_metadata r) = entityClass
  end.
Proof.
  cbv zeta. unfold connection_after.
  pose proof (run_paired calls _ (new_Connection_paired name driver options next)) as Hp.
  destruct (run (new_Connection name driver options next) calls) as [this next'].
  cbn [fst].
  destruct (find (fun x => same_class (target x) entityClass) (_entityMetadatas this))
    as [m |] eqn:Efind.
  - apply find_some in Efind. destruct Efind as [Hin Hsame].
    apply same_class_true in Hsame. subst entityClass.
    destruct (getRepository_paired this next' m Hp Hin) as (p & Hp1 & _ & Hp3 & Hp4 & Hp5 & Hp6).
    rewrite Hp4. split; [| split].
    + unfold repositories. apply in_map_iff. exists p. auto.
    + rewrite Hp6. exact Hp3.
    + rewrite Hp6. exact Hp5.
  - unfold getRepository, getEntityMetadata, entityMetadatas. rewrite Efind.
    split; reflexivity.
Qed.

(** X8: the first registration of a class wins: a repository or a metadata
    that a lookup returns is still what it returns after any further calls,
    whatever they register. *)
Theorem lookups_stable (this : Connection) (free : Ref) (calls : list Call)
    (entityClass : ConstructorFunction) :
  let this' := fst (run (this, free) calls) in
  (forall m, getEntityMetadata this entityClass = Normal m ->
             getEntityMetadata this' entityClass = Normal m) /\
  (forall r, getRepository this entityClass = Normal r ->
             getRepository this' entityClass = Normal r).
Proof.
  cbv zeta.
  destruct (run_registries calls (this, free)) as (_ & Hm & _ & ps & Hp & _).
  cbn [fst] in Hm, Hp.
  assert (Hmeta : forall m, getEntityMetadata this entityClass = Normal m ->
                    getEntityMetadata (fst (run (this, free) calls)) entityClass = Normal m).
  { intros m. unfold getEntityMetadata, entityMetadatas. rewrite Hm.
    destruct (find (fun metadata => same_class (target metadata) entityClass)
                   (_entityMetadatas this)) as [m0 |] eqn:Efind; [| discriminate].
    intros [= ->]. now rewrite (find_app_some _ _ (registered calls) _ Efind). }
  split; [exact Hmeta |].
  intros r. unfold getRepository.
  destruct (getEntityMetadata this entityClass) as [m | e] eqn:Em; [| discriminate].
  rewrite (Hmeta m eq_refl), Hp.
  destruct (find (fun repoMeta => same_metadata (metadata repoMeta) m)
                 (repositoryAndMetadatas this)) as [p |] eqn:Efind; [| discriminate].
  intros [= <-]. now rewrite (find_app_some _ _ ps _ Efind).
Qed.

(** X9: no call changes what the constructor set up: after any program the
    name and the options are the ones given, the driver is the one given
    with its back reference set to this connection, and the entity manager
    is the one the constructor created for this connection. *)
Theorem constructor_fields_kept (calls : list Call) :
  let this := connection_after name driver options next calls in
  Conn.name this = name /\
  Conn.options this = options /\
  Conn.driver this =
    {| driver_ref := driver_ref driver; driver_connection := Some (this_ref this) |} /\
  getEntityManager this =
    {| entityManager_ref := S next; entityManager_connection := this_ref this |} /\
  this_ref this = next.
Proof.
  cbv zeta. unfold connection_after, Conn.name, Conn.options, Conn.driver, getEntityManager.
  destruct (run_other_fields calls (new_Connection name driver options next))
    as (Hn & Hd & Ho & He & _).
  destruct (run_registries calls (new_Connection name driver options next)) as (Ht & _).
  rewrite Hn, Hd, Ho, He, Ht. repeat split.
Qed.

(** X10: after any program, the subscribers getter returns the subscribers
    handed to addSubscribers and the entityListeners getter the metadatas
    handed to addEntityListenerMetadatas, each in call order. *)
Theorem subscribers_and_listeners_in_call_order (calls : list Call) :
  let this := connection_after name driver options next calls in
  subscribers this = subscribed calls /\
  entityListeners this = listened calls.
Proof.
  cbv zeta. unfold connection_after, subscribers, entityListeners.
  destruct (run_other_fields calls (new_Connection name driver options next))
    as (_ & _ & _ & _ & Hs & Hl).
  rewrite Hs, Hl. split; reflexivity.
Qed.

(** X11: registering metadatas in one batch or in two consecutive batches
    gives the same connection and the same allocations, and an empty batch
    changes nothing. *)
Theorem addEntityMetadatas_batches (this : Connection) (a b : list EntityMetadata) (free : Ref) :
  addEntityMetadatas this (a ++ b) free =
    (let (this1, free1) := addEntityMetadatas this a free in
     addEntityMetadatas this1 b free1) /\
  addEntityMetadatas this [] free = (this, free).
Proof.
  split.
  - rewrite !addEntityMetadatas_eq, createRepoMeta_map_app.
    destruct (alloc_map (createRepoMeta this) a free) as [pa free1].
    rewrite addEntityMetadatas_eq.
    match goal with
    | |- context [alloc_map (createRepoMeta ?t) b free1] =>
        lazymatch t with
        | this => fail
        | _ => rewrite (createRepoMeta_map_ext t this b free1 eq_refl)
        end
    end.
    destruct (alloc_map (createRepoMeta this) b free1) as [pb free2].
    cbn. rewrite !app_assoc. reflexivity.
  - rewrite addEntityMetadatas_eq. destruct this. cbn. rewrite !app_nil_r. reflexivity.
Qed.

(** X12: registrations of different kinds commute: entity metadatas,
    listener metadatas and subscribers can be added in any order of calls
    with the same resulting connection and allocations. *)
Theorem registrations_commute (s : State) (metadatas : list EntityMetadata)
    (listeners : list EntityListenerMetadata) (subs : list EventSubscriberInterface) :
  step (step s (AddSubscribers subs)) (AddEntityMetadatas metadatas) =
    step (step s (AddEntityMetadatas metadatas)) (AddSubscribers subs) /\
  step (step s (AddEntityListenerMetadatas listeners)) (AddEntityMetadatas metadatas) =
    step (step s (AddEntityMetadatas metadatas)) (AddEntityListenerMetadatas listeners) /\
  step (step s (AddSubscribers subs)) (AddEntityListenerMetadatas listeners) =
    step (step s (AddEntityListenerMetadatas listeners)) (AddSubscribers subs).
Proof.
  destruct s as [this free].
  split; [| split]; cbn [step]; [| | reflexivity];
    rewrite !addEntityMetadatas_eq;
    match goal with
    | |- context [alloc_map (createRepoMeta ?t) metadatas free] =>
        lazymatch t with
        | this => fail
        | _ => rewrite (createRepoMeta_map_ext t this metadatas free eq_refl)
        end
    end;
    destruct (alloc_map (createRepoMeta this) metadatas free) as [pairs free'];
    reflexivity.
Qed.

End ConnectionFurther.

(** ** The further properties on the sample class *)

Section FurtherOnSample.
Import Sample.

Lemma PrimaryColumn_type_precedence_witness :
  fst (Columns.declare (Columns.ArgType "int") (Some autoIncrementOptions)
         PostCategory_prototype "id" Columns.emptyStorage) = Normal tt /\
  exists entry,
    Columns.columnMetadatas
      (Columns.defaultMetadataStorage
         (snd (Columns.declare (Columns.ArgType "int") (Some autoIncrementOptions)
                 PostCategory_prototype "id" Columns.emptyStorage))) = [entry] /\
    Columns.type (Columns.options entry) = Some "int" /\
    Columns.autoIncrement (Columns.options entry) = Some true.
Proof.
  assert (Hok : fst (Columns.declare (Columns.ArgType "int") (Some autoIncrementOptions)
                       PostCategory_prototype "id" Columns.emptyStorage) = Normal tt)
    by reflexivity.
  split; [exact Hok |].
  destruct (PrimaryColumn_type_precedence
              (Columns.PrimaryColumn (Columns.ArgType "int") (Some autoIncrementOptions))
              PostCategory_prototype "id" Columns.emptyStorage Hok)
    as (entry & Hstorage & Htype & _ & Hauto & _).
  exists entry. repeat split; assumption.
Defined.

Lemma decorate_options_object_frame_witness :
  Columns.truthy_string (Columns.type nullableOptions) = false /\
  exists o',
    Columns.closure_options
      (Columns.closure
         (snd (Columns.declare (Columns.ArgType "int") (Some nullableOptions)
                 PostCategory_prototype "id" Columns.emptyStorage))) = Some o' /\
    Columns.nullable o' = Some true /\
    Columns.type o' = Some "int".
Proof.
  split; [reflexivity |].
  destruct (decorate_options_object_frame
              (Columns.PrimaryColumn (Columns.ArgType "int") (Some nullableOptions))
              PostCategory_prototype "id" Columns.emptyStorage)
    as (o' & Hafter & Hnullable & _ & _ & _ & _ & _ & Htype).
  exists o'. split; [exact Hafter |]. split; [exact Hnullable |].
  exact (Htype eq_refl).
Defined.

Lemma decorate_success_is_kept_witness :
  fst (Columns.declare Columns.ArgUndefined None PostCategory_prototype "id"
         Columns.emptyStorage) = Normal tt /\
  fst (Columns.decorate PostCategory_prototype "unknown"
         (snd (Columns.declare Columns.ArgUndefined None PostCategory_prototype "id"
                 Columns.emptyStorage))) = Normal tt.
Proof.
  assert (Hok : fst (Columns.declare Columns.ArgUndefined None PostCategory_prototype "id"
                       Columns.emptyStorage) = Normal tt)
    by reflexivity.
  split; [exact Hok |].
  exact (proj1 (decorate_success_is_kept
                  (Columns.PrimaryColumn Columns.ArgUndefined None)
                  PostCategory_prototype PostCategory_prototype "id" "unknown"
                  Columns.emptyStorage Hok)).
Defined.

Lemma lookups_stable_witness :
  Conn.getRepository sampleConnection PostCategory =
    Normal {| Conn.repository_ref := 102; Conn.repository_connection := 100;
              Conn.repository_metadata := postCategoryMetadata |} /\
  Conn.getRepository
    (fst (Conn.run (sampleConnection, 103)
            [Conn.AddEntityMetadatas
               [ {| Conn.metadata_ref := 12; Conn.target := PostCategory;
                    Conn.tableName := "other_post_category" |} ]]))
    PostCategory =
    Normal {| Conn.repository_ref := 102; Conn.repository_connection := 100;
              Conn.repository_metadata := postCategoryMetadata |}.
Proof.
  assert (Hget : Conn.getRepository sampleConnection PostCategory =
                 Normal {| Conn.repository_ref := 102; Conn.repository_connection := 100;
                           Conn.repository_metadata := postCategoryMetadata |})
    by reflexivity.
  split; [exact Hget |].
  exact (proj2 (lookups_stable sampleConnection 103 _ PostCategory) _ Hget).
Defined.

End FurtherOnSample.
